(** * The dispenser gateway: event admission and the device registry

    A shallow embedding of [app.py]: the Flask view [index], the
    authentication check [permitted], the admission pipeline
    [process_event] and the five per-type handlers, over an explicit state
    made of the [dispensers] table, the SQLAlchemy session and the trace of
    everything the code logs or prints. *)

From Stdlib Require Import ZArith String List Lia Sorted.
From Stdlib Require Import Floats.SpecFloat.
From stdpp Require Import base gmap strings list.

Set Warnings "-register-all".

Local Open Scope Z_scope.
Local Open Scope string_scope.
Local Open Scope list_scope.

(** ** Python values

    [request.get_json()] hands the code a decoded JSON document. Its values
    are modelled by [pyval]. A JSON number without fraction and exponent
    decodes to an [int], any other to a [float]: a binary floating-point
    number, kept as its sign, mantissa and exponent ([spec_float]), or an
    infinity or NaN, which the decoder accepts as well. *)

Inductive pyval : Type :=
| PyNone
| PyBool (b : bool)
| PyInt (z : Z)
| PyFloat (f : spec_float)
| PyStr (s : string)
| PyList (l : list pyval)
| PyDict (l : list (string * pyval)).

(** An event is the decoded JSON object of the request body. The requests
    whose body does not decode to an object are not modelled: for them
    [request.get_json()] aborts before anything is logged, or it returns a
    value without a [get] method and [process_event] raises
    [AttributeError] on its first line. *)
Abbreviation event := (gmap string pyval).

(** The integer a float is equal to, if it is equal to one: the value of
    [S754_finite s m e] is [m * 2 ^ e], negated when [s] is set. *)
Definition float_int (f : spec_float) : option Z :=
  match f with
  | S754_zero _ => Some 0%Z
  | S754_finite s m e =>
      let sign (z : Z) := if s then (- z)%Z else z in
      if (0 <=? e)%Z then Some (sign (Z.pos m * 2 ^ e)%Z)
      else if (Z.pos m mod 2 ^ (- e) =? 0)%Z then Some (sign (Z.pos m / 2 ^ (- e))%Z)
      else None
  | _ => None
  end.

(** The float [1.0]. *)
Definition float_one : spec_float := S754_finite false 4503599627370496 (-52).

(** [bool(v)]: [None], [False], [0], [0.0], [''], [[]] and [{}] are falsy. *)
Definition truthy (v : pyval) : bool :=
  match v with
  | PyNone => false
  | PyBool b => b
  | PyInt z => negb (z =? 0)%Z
  | PyFloat f => match f with S754_zero _ => false | _ => true end
  | PyStr s => negb (String.eqb s EmptyString)
  | PyList l => match l with [] => false | _ => true end
  | PyDict l => match l with [] => false | _ => true end
  end.

(** [v == s] for a string literal [s]: only a string is equal to a string. *)
Definition eq_str (v : pyval) (s : string) : bool :=
  match v with
  | PyStr t => String.eqb t s
  | _ => false
  end.

(** [v in l] for a list [l] of string literals. *)
Definition in_strs (v : pyval) (l : list string) : bool :=
  existsb (eq_str v) l.

(** [hash(v)] raises [TypeError] for lists and dicts. *)
Definition hashable (v : pyval) : bool :=
  match v with
  | PyList _ | PyDict _ => false
  | _ => true
  end.

(** The integer a value is equal to, if any: [True == 1], [False == 0]
    and [1.0 == 1], with equal hashes, so a bool or a float of integral
    value finds an [int] key in a dict. *)
Definition int_of (v : pyval) : option Z :=
  match v with
  | PyInt z => Some z
  | PyBool b => Some (Z.b2z b)
  | PyFloat f => float_int f
  | _ => None
  end.

(** ** Exceptions, state and the monad of the code *)

Inductive exn : Type :=
| HTTPException (code : Z)      (* raised by [abort(code)] *)
| TypeError                     (* unhashable dict key *)
| KeyError (k : string)         (* [event[k]] on an absent key *)
| IntegrityError                (* primary key violated on INSERT *)
| DatabaseError.                (* a value the driver cannot store *)

Inductive result (A : Type) : Type :=
| Return (a : A)
| Raise (e : exn).
Arguments Return {A} a.
Arguments Raise {A} e.

(** The mapped class: the attributes [__init__] assigns. *)
Record Dispenser : Type := mkDispenser {
  id : pyval;
  name : string;
  capacity : Z;
  dispensed : Z
}.

(** A row of the table [dispensers]; [row_id] is the primary key. *)
Record row : Type := mkRow {
  row_id : Z;
  row_name : string;
  row_capacity : Z;
  row_dispensed : Z
}.

Inductive level : Type := INFO | WARNING.

(** What the session holds: an object added and not yet flushed, or a row
    the flush has inserted in the open transaction, not yet committed. *)
Inductive entry : Type :=
| Pending (d : Dispenser)
| Inserted (r : row).

(** What the code writes or sends. [Logged lv msg (Some e)] is a logger
    call with the message [msg + str(e)]. [Sent] is [producer.send], which
    the source has only as a comment: no function below produces it. *)
Inductive effect : Type :=
| Logged (lv : level) (msg : string) (arg : option event)
| Printed (i : Z) (n : string)
| Sent (topic : string) (e : event).

Record state : Type := mkState {
  table : list row;            (* the committed rows of [dispensers], as a SELECT reads them *)
  session : list entry;        (* [db.session]: what is not committed yet *)
  trace : list effect          (* oldest first *)
}.

Definition M (A : Type) : Type := state -> result A * state.

Definition ret {A} (a : A) : M A := fun st => (Return a, st).

Definition raise {A} (e : exn) : M A := fun st => (Raise e, st).

Definition bind {A B} (m : M A) (k : A -> M B) : M B :=
  fun st =>
    match m st with
    | (Return a, st') => k a st'
    | (Raise e, st') => (Raise e, st')
    end.

Declare Scope py_scope.
Delimit Scope py_scope with py.
Notation "'let*' x ':=' m 'in' k" := (bind m (fun x => k))
  (at level 10, x name, m at level 100, k at level 200) : py_scope.
Notation "m ';;' k" := (bind m (fun _ => k))
  (at level 100, k at level 200, right associativity) : py_scope.
Local Open Scope py_scope.

Definition emit (x : effect) : M unit :=
  fun st => (Return tt, mkState (table st) (session st) (trace st ++ [x])).

(** [app.logger.info(msg + str(e))], [app.logger.warn(msg)], [abort(code)]. *)
Definition logger_info (msg : string) (e : event) : M unit :=
  emit (Logged INFO msg (Some e)).

Definition logger_warn (msg : string) : M unit :=
  emit (Logged WARNING msg None).

Definition abort {A} (code : Z) : M A := raise (HTTPException code).

(** [event.get(k)]: [None] when the key is absent. *)
Definition get (e : event) (k : string) : pyval :=
  default PyNone (e !! k).

(** [event[k]]: [KeyError] when the key is absent. *)
Definition subscript (e : event) (k : string) : M pyval :=
  match e !! k with
  | Some v => ret v
  | None => raise (KeyError k)
  end.

(** ** The database session

    The table [dispensers] is taken to exist with the schema the class
    [Dispenser] declares: four columns, and the primary key on [id]. *)

(** The value an INTEGER PRIMARY KEY column receives: an [int] of 64 bits
    as it is, a bool as 0 or 1, a float of integral value as that integer.
    The only ids that pass [permitted] are equal to 1, so nothing else is
    reached from [process_event]: the model raises for a string, which
    SQLite stores as a number when it spells one, and for [None], for which
    SQLite chooses an id; it raises also where SQLite does, for an
    integer out of range, a float with a fraction, a list and a dict. *)
Definition int64 (z : Z) : option Z :=
  if ((- 2 ^ 63 <=? z) && (z <? 2 ^ 63))%Z then Some z else None.

Definition bind_integer (v : pyval) : option Z :=
  match v with
  | PyInt z => int64 z
  | PyBool b => Some (Z.b2z b)
  | PyFloat f => match float_int f with Some z => int64 z | None => None end
  | _ => None
  end.

Definition has_id (k : Z) (t : list row) : bool :=
  existsb (fun r => (row_id r =? k)%Z) t.

(** The table is kept in the order a SELECT without ORDER BY reads it, by
    ascending id: the INSERT of a row puts it before the first row with a
    greater id. *)
Fixpoint insert_row (r : row) (t : list row) : list row :=
  match t with
  | [] => [r]
  | x :: t' =>
      if (row_id r <? row_id x)%Z then r :: x :: t' else x :: insert_row r t'
  end.

(** The rows of the open transaction. *)
Fixpoint inserted (s : list entry) : list row :=
  match s with
  | [] => []
  | Inserted r :: s' => r :: inserted s'
  | Pending _ :: s' => inserted s'
  end.

(** What a SELECT of the session sees: the committed rows and the rows of
    its open transaction. *)
Definition view (st : state) : list row :=
  fold_left (fun t r => insert_row r t) (inserted (session st)) (table st).

(** INSERT of the pending objects, in order, in the rows [v] the
    transaction sees; the primary key on [id] makes the INSERT of an id
    that [v] already holds fail. *)
Fixpoint flush_entries (v : list row) (s : list entry) : result (list entry) :=
  match s with
  | [] => Return []
  | Inserted r :: s' =>
      match flush_entries v s' with
      | Return s'' => Return (Inserted r :: s'')
      | Raise x => Raise x
      end
  | Pending d :: s' =>
      match bind_integer (id d) with
      | None => Raise DatabaseError
      | Some k =>
          if has_id k v then Raise IntegrityError
          else
            let r := mkRow k (name d) (capacity d) (dispensed d) in
            match flush_entries (insert_row r v) s' with
            | Return s'' => Return (Inserted r :: s'')
            | Raise x => Raise x
            end
      end
  end.

(** [db.session.add(d)]. *)
Definition session_add (d : Dispenser) : M unit :=
  fun st => (Return tt, mkState (table st) (session st ++ [Pending d]) (trace st)).

(** The flush of the session: the pending objects are inserted in the
    open transaction, or, when one INSERT fails, the transaction is rolled
    back and the error is raised. Nothing is committed. *)
Definition session_flush : M unit :=
  fun st =>
    match flush_entries (view st) (session st) with
    | Return s => (Return tt, mkState (table st) s (trace st))
    | Raise e => (Raise e, mkState (table st) [] (trace st))
    end.

(** [db.session.commit()] flushes, then commits the transaction: its rows
    join the table. *)
Definition session_commit : M unit :=
  session_flush ;; fun st => (Return tt, mkState (view st) [] (trace st)).

(** [db.session.query(Dispenser).all()] and [Dispenser.query.all()]: the
    query flushes the session first, then reads what the session sees. *)
Definition query_all : M (list row) :=
  session_flush ;; fun st => (Return (view st), st).

(** ** The application *)

(** [permitted_devices = {1: '42x5yz'}]. *)
Definition permitted_devices : gmap Z string := {[ 1%Z := "42x5yz" ]}.

(** [d.get(k)] on a dict with integer keys: [TypeError] for an unhashable
    key, else the entry of the key equal to [k], if any. *)
Definition dict_get (d : gmap Z string) (k : pyval) : result (option string) :=
  if hashable k then
    Return (match int_of k with Some z => d !! z | None => None end)
  else Raise TypeError.

(** [stored == token], where [stored] is the result of [dict.get]. *)
Definition eq_stored (stored : option string) (token : pyval) : bool :=
  match stored with
  | Some s => eq_str token s
  | None => match token with PyNone => true | _ => false end
  end.

Definition permitted (id token : pyval) : M bool :=
  match dict_get permitted_devices id with
  | Return stored => ret (eq_stored stored token)
  | Raise e => raise e
  end.

Fixpoint print_all (l : list row) : M unit :=
  match l with
  | [] => ret tt
  | r :: l' => emit (Printed (row_id r) (row_name r)) ;; print_all l'
  end.

Definition handle_startup (e : event) : M unit :=
  logger_info "Processing STARTUP event: " e ;;
  let* i := subscript e "id" in
  let new_dispenser := mkDispenser i "Another Dispenser" 20 0 in
  session_add new_dispenser ;;
  session_commit ;;
  let* all_dispensers := query_all in
  print_all all_dispensers.

Definition handle_dispense (e : event) : M unit :=
  logger_info "Processing DISPENSE event: " e.

Definition handle_refill_request (e : event) : M unit :=
  logger_info "Processing REFILL event: " e.

Definition handle_refilled (e : event) : M unit :=
  logger_info "Processing REFILLED event: " e.

Definition handle_empty (e : event) : M unit :=
  logger_info "Processing EMPTY event: " e.

Definition legal_types : list string :=
  ["STARTUP"; "DISPENSE"; "REFILL"; "REFILLED"; "EMPTY"].

Definition process_event (e : event) : M unit :=
  let id := get e "id" in
  let token := get e "token" in
  let type := get e "type" in
  if negb (truthy id) || negb (truthy token) || negb (truthy type) then
    logger_warn "Request rejected: Required field absent" ;; abort 400
  else if negb (in_strs type legal_types) then
    logger_warn "Request rejected: Invalid event type" ;; abort 400
  else
    let* i := subscript e "id" in
    let* t := subscript e "token" in
    let* ok := permitted i t in
    if negb ok then
      logger_warn "Request rejected: Invalid authentication token" ;; abort 401
    else if eq_str type "STARTUP" then handle_startup e
    else if eq_str type "DISPENSE" then handle_dispense e
    else if eq_str type "REFILL" then handle_refill_request e
    else if eq_str type "REFILLED" then handle_refilled e
    else if eq_str type "EMPTY" then handle_empty e
    else ret tt.

Inductive method : Type := GET | POST.

(** What the view returns: a string, or a rendered template. *)
Inductive body : Type :=
| Text (s : string)
| Template (file : string) (dispensers : list row).

Definition index (m : method) (json : event) : M body :=
  match m with
  | POST =>
      logger_info "Event: " json ;;
      process_event json ;;
      ret (Text EmptyString)
  | GET =>
      let* dispensers := query_all in
      ret (Template "index.html" dispensers)
  end.

(** ** One request

    Flask answers with status 200 and the returned body, with the code of
    an [HTTPException], and with 500 for any other exception. Each request
    runs with a session of its own, removed when the request ends: what
    the session has not committed is rolled back. *)

Inductive response : Type :=
| Ok (b : body)
| Error (code : Z).

Definition status (r : response) : Z :=
  match r with
  | Ok _ => 200
  | Error c => c
  end.

Definition respond (r : result body) : response :=
  match r with
  | Return b => Ok b
  | Raise (HTTPException c) => Error c
  | Raise _ => Error 500
  end.

Definition serve (m : method) (json : event) (st : state) : response * state :=
  let '(r, st') := index m json (mkState (table st) [] (trace st)) in
  (respond r, mkState (table st') [] (trace st')).

Definition post (e : event) (st : state) : response * state := serve POST e st.

(** ** Vocabulary of the proofs and of the claims *)

(** The state after one more line in the trace. *)
Definition log (x : effect) (st : state) : state :=
  mkState (table st) (session st) (trace st ++ [x]).

(** The presence check of [process_event]: the three fields are truthy. *)
Definition present (e : event) : bool :=
  truthy (get e "id") && truthy (get e "token") && truthy (get e "type").

(** The event passes both checks that precede authentication. *)
Definition valid (e : event) : bool :=
  present e && in_strs (get e "type") legal_types.

(** The handler the dispatch of [process_event] selects for a type. *)
Definition handler (type : pyval) (e : event) : M unit :=
  if eq_str type "STARTUP" then handle_startup e
  else if eq_str type "DISPENSE" then handle_dispense e
  else if eq_str type "REFILL" then handle_refill_request e
  else if eq_str type "REFILLED" then handle_refilled e
  else if eq_str type "EMPTY" then handle_empty e
  else ret tt.

(** An event is authenticated when [permitted] returns [True] on it. *)
Definition authenticated (e : event) : bool :=
  match dict_get permitted_devices (get e "id") with
  | Return stored => eq_stored stored (get e "token")
  | Raise _ => false
  end.

(** The line [handle_startup] prints for a row. *)
Definition printed (r : row) : effect := Printed (row_id r) (row_name r).

(** The state with an empty session, as a request finds and leaves it. *)
Definition fresh (st : state) : state := mkState (table st) [] (trace st).

(** The rejections of the specification, by the status [abort] is called
    with and the warning logged before it. *)
Inductive rejection : Type := MissingField | IllegalType | Unauthenticated.

Definition code (k : rejection) : Z :=
  match k with
  | MissingField | IllegalType => 400
  | Unauthenticated => 401
  end.

Definition warning (k : rejection) : string :=
  match k with
  | MissingField => "Request rejected: Required field absent"
  | IllegalType => "Request rejected: Invalid event type"
  | Unauthenticated => "Request rejected: Invalid authentication token"
  end.

(** The outcome of a request rejected as [k]: the error response, the
    table as it was, and two lines in the trace, the event and the warning. *)
Definition rejected (k : rejection) (e : event) (st : state) : response * state :=
  (Error (code k),
   mkState (table st) []
     (trace st ++ [Logged INFO "Event: " (Some e); Logged WARNING (warning k) None])).

(** The response and the table after a POST, as a function of the three
    fields the code reads and of the table before. *)
Definition outcome (id token type : pyval) (t : list row) : response * list row :=
  if negb (truthy id && truthy token && truthy type) then (Error 400, t)
  else if negb (in_strs type legal_types) then (Error 400, t)
  else
    match dict_get permitted_devices id with
    | Raise _ => (Error 500, t)
    | Return stored =>
        if negb (eq_stored stored token) then (Error 401, t)
        else if eq_str type "STARTUP" then
          match bind_integer id with
          | None => (Error 500, t)
          | Some k =>
              if has_id k t then (Error 500, t)
              else (Ok (Text EmptyString), insert_row (mkRow k "Another Dispenser" 20 0) t)
          end
        else (Ok (Text EmptyString), t)
    end.

(** How a POST is rejected, if it is, as a function of the three fields. *)
Definition rejection_of (id token type : pyval) : option rejection :=
  if negb (truthy id && truthy token && truthy type) then Some MissingField
  else if negb (in_strs type legal_types) then Some IllegalType
  else
    match dict_get permitted_devices id with
    | Raise _ => None
    | Return stored =>
        if negb (eq_stored stored token) then Some Unauthenticated else None
    end.

(** A field that is absent, null or empty. *)
Definition blank (o : option pyval) : Prop :=
  o = None \/ o = Some PyNone \/ o = Some (PyStr EmptyString) \/
  o = Some (PyList []) \/ o = Some (PyDict []).

(** What a request appended to the trace. *)
Definition added (st st' : state) : list effect :=
  drop (length (trace st)) (trace st').

(** Every handler starts with a line of its own in the log. *)
Definition handler_lines : list string :=
  ["Processing STARTUP event: "; "Processing DISPENSE event: ";
   "Processing REFILL event: "; "Processing REFILLED event: ";
   "Processing EMPTY event: "].

(** A handler ran: its line is in the trace. *)
Definition dispatched (tr : list effect) : Prop :=
  exists msg arg, msg ∈ handler_lines /\ Logged INFO msg arg ∈ tr.

(** An event was handed to the relay. *)
Definition relayed (tr : list effect) : Prop :=
  exists topic e, Sent topic e ∈ tr.

(** The events of the scenarios. *)
Definition make_event (id token type : pyval) : event :=
  <["id" := id]> (<["token" := token]> (<["type" := type]> ∅)).

(** No device registered, nothing logged. *)
Definition empty_state : state := mkState [] [] [].

(** Two records at different positions of the table share the id [k]. *)
Definition duplicated (k : Z) (t : list row) : Prop :=
  exists i j r1 r2, i <> j /\ t !! i = Some r1 /\ t !! j = Some r2 /\
    row_id r1 = k /\ row_id r2 = k.

(** The primary key: no two rows share an id. *)
Definition unique_ids (t : list row) : Prop := NoDup (map row_id t).

(** C2 as the specification states it: a STARTUP for a known id leaves two
    records with that id in the registry. *)
Definition startup_duplicates (e : event) (st : state) : Prop :=
  valid e = true -> authenticated e = true ->
  get e "type" = PyStr "STARTUP" ->
  forall k, int_of (get e "id") = Some k -> has_id k (table st) = true ->
  duplicated k (table (snd (post e st))).

(** C4 as the specification states it: an event whose three fields are
    present (none absent, null or empty) and whose type is not legal is
    rejected as IllegalType. *)
Definition illegal_type_rejected_when_present (e : event) (st : state) : Prop :=
  ~ blank (e !! "id") -> ~ blank (e !! "token") -> ~ blank (e !! "type") ->
  in_strs (get e "type") legal_types = false ->
  post e st = rejected IllegalType e st.

(** The token of the event is the one the credential table stores for its id. *)
Definition token_matches (e : event) : Prop :=
  exists z s, int_of (get e "id") = Some z /\
    permitted_devices !! z = Some s /\ get e "token" = PyStr s.

(** [permitted] returns [False] on the event. *)
Definition fails_authentication (e : event) : Prop :=
  exists stored, dict_get permitted_devices (get e "id") = Return stored /\
    eq_stored stored (get e "token") = false.

(** The id of the event has an entry in the credential table, with another
    token than the one of the event. *)
Definition known_id_wrong_token (e : event) : Prop :=
  exists z s, int_of (get e "id") = Some z /\
    permitted_devices !! z = Some s /\ get e "token" <> PyStr s.

(** The id of the event has no entry in the credential table. *)
Definition unknown_id (e : event) : Prop :=
  forall z, int_of (get e "id") = Some z -> permitted_devices !! z = None.

(** The invariant of a device record. *)
Definition bounded (r : row) : Prop :=
  (0 <= row_dispensed r <= row_capacity r)%Z.

(** The state after a sequence of POST requests. *)
Definition run (es : list event) (st : state) : state :=
  fold_left (fun s e => snd (post e s)) es st.

(** The state after a sequence of requests, GET or POST. *)
Definition serve_all (rs : list (method * event)) (st : state) : state :=
  fold_left (fun s r => snd (serve (fst r) (snd r) s)) rs st.

(** The row [handle_startup] stores for an id equal to 1. *)
Definition device_one : row := mkRow 1 "Another Dispenser" 20 0.

(** The rows are in the order of a table read: by ascending id. *)
Definition ascending (t : list row) : Prop :=
  StronglySorted Z.lt (map row_id t).

(** ** Admission: what [process_event] does, case by case *)

Lemma bind_ret {A B} (a : A) (k : A -> M B) (st : state) :
  bind (ret a) k st = k a st.
Proof. reflexivity. Qed.

Lemma bind_emit {B} (x : effect) (k : unit -> M B) (st : state) :
  bind (emit x) k st = k tt (mkState (table st) (session st) (trace st ++ [x])).
Proof. reflexivity. Qed.

Lemma subscript_get (e : event) (k : string) :
  truthy (get e k) = true -> subscript e k = ret (get e k).
Proof.
  unfold get, subscript. destruct (e !! k) as [v|]; simpl; [reflexivity | discriminate].
Qed.

Lemma present_fields (e : event) :
  present e = true ->
  truthy (get e "id") = true /\ truthy (get e "token") = true /\ truthy (get e "type") = true.
Proof.
  unfold present. intros H.
  apply andb_true_iff in H as [H Hty]. apply andb_true_iff in H as [Hid Htok]. auto.
Qed.

Lemma valid_fields (e : event) :
  valid e = true -> present e = true /\ in_strs (get e "type") legal_types = true.
Proof. unfold valid. intros H. apply andb_true_iff in H. exact H. Qed.

Lemma process_event_missing (e : event) (st : state) :
  present e = false ->
  process_event e st =
    (Raise (HTTPException 400),
     log (Logged WARNING "Request rejected: Required field absent" None) st).
Proof.
  intros H. unfold process_event, present in *.
  rewrite <- !negb_andb, H. reflexivity.
Qed.

Lemma process_event_illegal (e : event) (st : state) :
  present e = true -> in_strs (get e "type") legal_types = false ->
  process_event e st =
    (Raise (HTTPException 400),
     log (Logged WARNING "Request rejected: Invalid event type" None) st).
Proof.
  intros H Hty. unfold process_event, present in *.
  rewrite <- !negb_andb, H, Hty. reflexivity.
Qed.

Lemma process_event_valid (e : event) (st : state) :
  valid e = true ->
  process_event e st =
    match dict_get permitted_devices (get e "id") with
    | Raise x => (Raise x, st)
    | Return stored =>
        if eq_stored stored (get e "token") then handler (get e "type") e st
        else (Raise (HTTPException 401),
              log (Logged WARNING "Request rejected: Invalid authentication token" None) st)
    end.
Proof.
  intros Hv. apply valid_fields in Hv as [Hp Hty].
  pose proof (present_fields e Hp) as (Hid & Htok & _).
  unfold process_event. unfold present in Hp.
  rewrite <- !negb_andb, Hp, Hty. cbn [negb].
  rewrite (subscript_get e "id" Hid), (subscript_get e "token" Htok).
  rewrite !bind_ret. unfold permitted.
  destruct (dict_get permitted_devices (get e "id")) as [stored|x].
  - rewrite bind_ret. destruct (eq_stored stored (get e "token")); reflexivity.
  - reflexivity.
Qed.

(** Which keys the credential table answers for. *)
Lemma dict_get_permitted (k : pyval) :
  dict_get permitted_devices k =
    if hashable k then
      Return (if bool_decide (int_of k = Some 1%Z) then Some "42x5yz" else None)
    else Raise TypeError.
Proof.
  unfold dict_get, permitted_devices. destruct (hashable k); [|reflexivity].
  f_equal. destruct (int_of k) as [z|].
  - destruct (decide (z = 1%Z)) as [->|Hne].
    + rewrite lookup_singleton_eq. reflexivity.
    + rewrite lookup_singleton_ne by congruence.
      rewrite bool_decide_eq_false_2 by congruence. reflexivity.
  - reflexivity.
Qed.

Lemma authenticated_inv (e : event) :
  valid e = true -> authenticated e = true ->
  int_of (get e "id") = Some 1%Z /\ get e "token" = PyStr "42x5yz".
Proof.
  intros Hv. apply valid_fields in Hv as [Hp _].
  apply present_fields in Hp as (_ & Htok & _).
  unfold authenticated. rewrite dict_get_permitted.
  destruct (hashable (get e "id")); [|discriminate].
  case_bool_decide as Hk; simpl.
  - intros Heq. split; [exact Hk|].
    destruct (get e "token") as [| | | |s| |]; simpl in Heq; try discriminate.
    apply String.eqb_eq in Heq. congruence.
  - destruct (get e "token"); simpl in *; discriminate.
Qed.

Lemma process_event_authenticated (e : event) (st : state) :
  valid e = true -> authenticated e = true ->
  process_event e st = handler (get e "type") e st.
Proof.
  intros Hv Ha. rewrite process_event_valid by exact Hv.
  unfold authenticated in Ha.
  destruct (dict_get permitted_devices (get e "id")); [|discriminate].
  rewrite Ha. reflexivity.
Qed.

Lemma print_all_spec (l : list row) (st : state) :
  print_all l st =
    (Return tt, mkState (table st) (session st) (trace st ++ map printed l)).
Proof.
  revert st. induction l as [|r l IH]; intros st.
  - simpl. rewrite app_nil_r. destruct st; reflexivity.
  - cbn [print_all map]. rewrite bind_emit, IH. cbn [table session trace].
    rewrite <- app_assoc. reflexivity.
Qed.

(** Runs [handle_startup] up to the INSERT of the new object: [He] gives
    the id of the event, [Hs] says that the session is empty. *)
Ltac startup_to_insert He Hs :=
  unfold handle_startup, logger_info;
  rewrite bind_emit; unfold subscript; rewrite He, bind_ret;
  unfold bind at 1, session_add; cbn [table session trace];
  unfold bind at 1, session_commit; unfold bind at 1, session_flush, view;
  cbn [table session trace];
  rewrite Hs;
  cbn [app inserted fold_left flush_entries id name capacity dispensed].

(** STARTUP in a fresh session, for an id the table does not hold yet: the
    row is inserted and committed, then every row is printed. *)
Lemma handle_startup_new (e : event) (v : pyval) (k : Z) (st : state) :
  e !! "id" = Some v -> bind_integer v = Some k ->
  session st = [] -> has_id k (table st) = false ->
  let t := insert_row (mkRow k "Another Dispenser" 20 0) (table st) in
  handle_startup e st =
    (Return tt,
     mkState t []
       (trace st ++ Logged INFO "Processing STARTUP event: " (Some e) :: map printed t)).
Proof.
  intros He Hk Hs Hnew t. startup_to_insert He Hs. rewrite Hk, Hnew.
  unfold view. cbn [table session trace inserted fold_left].
  unfold bind at 1, query_all. unfold bind at 1, session_flush, view.
  cbn [table session trace inserted fold_left flush_entries].
  rewrite print_all_spec. cbn [table session trace].
  rewrite <- app_assoc. reflexivity.
Qed.

(** STARTUP for an id the table already holds: the INSERT violates the
    primary key, nothing is stored and [IntegrityError] propagates. *)
Lemma handle_startup_known (e : event) (v : pyval) (k : Z) (st : state) :
  e !! "id" = Some v -> bind_integer v = Some k ->
  session st = [] -> has_id k (table st) = true ->
  handle_startup e st =
    (Raise IntegrityError,
     mkState (table st) []
       (trace st ++ [Logged INFO "Processing STARTUP event: " (Some e)])).
Proof.
  intros He Hk Hs Hold. startup_to_insert He Hs. rewrite Hk, Hold.
  reflexivity.
Qed.

(** The four other handlers only log. *)
Lemma handler_stub (type : pyval) (e : event) (st : state) :
  in_strs type legal_types = true -> eq_str type "STARTUP" = false ->
  exists msg,
    msg ∈ ["Processing DISPENSE event: "; "Processing REFILL event: ";
           "Processing REFILLED event: "; "Processing EMPTY event: "] /\
    handler type e st = (Return tt, log (Logged INFO msg (Some e)) st).
Proof.
  intros Hin Hs. unfold handler. rewrite Hs.
  unfold in_strs, legal_types in Hin. cbn [existsb] in Hin. rewrite Hs in Hin.
  destruct (eq_str type "DISPENSE") eqn:E1;
    [eexists; split; [|reflexivity]; set_solver|].
  destruct (eq_str type "REFILL") eqn:E2;
    [eexists; split; [|reflexivity]; set_solver|].
  destruct (eq_str type "REFILLED") eqn:E3;
    [eexists; split; [|reflexivity]; set_solver|].
  destruct (eq_str type "EMPTY") eqn:E4;
    [eexists; split; [|reflexivity]; set_solver|].
  discriminate.
Qed.

Lemma post_unfold (e : event) (st : state) :
  post e st =
    match process_event e (log (Logged INFO "Event: " (Some e)) (fresh st)) with
    | (Return _, st') => (Ok (Text EmptyString), fresh st')
    | (Raise x, st') => (respond (Raise x), fresh st')
    end.
Proof.
  unfold post, serve, index, logger_info. rewrite bind_emit.
  unfold bind at 1. unfold log, fresh. cbn [table session trace].
  destruct (process_event e _) as [[[]|x] st']; reflexivity.
Qed.

Lemma post_missing (e : event) (st : state) :
  present e = false -> post e st = rejected MissingField e st.
Proof.
  intros H. rewrite post_unfold, process_event_missing by exact H.
  unfold rejected, fresh, log. cbn [table session trace respond code warning].
  rewrite <- app_assoc. reflexivity.
Qed.

Lemma post_illegal (e : event) (st : state) :
  present e = true -> in_strs (get e "type") legal_types = false ->
  post e st = rejected IllegalType e st.
Proof.
  intros H Hty. rewrite post_unfold, process_event_illegal by assumption.
  unfold rejected, fresh, log. cbn [table session trace respond code warning].
  rewrite <- app_assoc. reflexivity.
Qed.

Lemma post_denied (e : event) (stored : option string) (st : state) :
  valid e = true ->
  dict_get permitted_devices (get e "id") = Return stored ->
  eq_stored stored (get e "token") = false ->
  post e st = rejected Unauthenticated e st.
Proof.
  intros Hv Hd Hne. rewrite post_unfold, process_event_valid by exact Hv.
  rewrite Hd, Hne.
  unfold rejected, fresh, log. cbn [table session trace respond code warning].
  rewrite <- app_assoc. reflexivity.
Qed.

Lemma post_unhashable (e : event) (st : state) :
  valid e = true -> hashable (get e "id") = false ->
  post e st =
    (Error 500,
     mkState (table st) [] (trace st ++ [Logged INFO "Event: " (Some e)])).
Proof.
  intros Hv Hh. rewrite post_unfold, process_event_valid by exact Hv.
  unfold dict_get. rewrite Hh. reflexivity.
Qed.

Lemma get_lookup (e : event) (k : string) :
  truthy (get e k) = true -> e !! k = Some (get e k).
Proof.
  unfold get. destruct (e !! k) as [v|]; simpl; [reflexivity | discriminate].
Qed.

Lemma lookup_get (e : event) (k : string) (v : pyval) :
  e !! k = Some v -> get e k = v.
Proof. unfold get. intros ->. reflexivity. Qed.

Lemma handle_startup_unstorable (e : event) (v : pyval) (st : state) :
  e !! "id" = Some v -> bind_integer v = None -> session st = [] ->
  handle_startup e st =
    (Raise DatabaseError,
     mkState (table st) []
       (trace st ++ [Logged INFO "Processing STARTUP event: " (Some e)])).
Proof.
  intros He Hk Hs. startup_to_insert He Hs. rewrite Hk.
  reflexivity.
Qed.

Lemma post_outcome (e : event) (st : state) :
  (fst (post e st), table (snd (post e st))) =
    outcome (get e "id") (get e "token") (get e "type") (table st).
Proof.
  unfold outcome. fold (present e).
  destruct (present e) eqn:Hp; cbn [negb].
  2:{ rewrite post_missing by exact Hp. reflexivity. }
  destruct (in_strs (get e "type") legal_types) eqn:Hty; cbn [negb].
  2:{ rewrite post_illegal by assumption. reflexivity. }
  assert (Hv : valid e = true) by (unfold valid; rewrite Hp, Hty; reflexivity).
  destruct (dict_get permitted_devices (get e "id")) as [stored|x] eqn:Hd.
  2:{ unfold dict_get in Hd.
      destruct (hashable (get e "id")) eqn:Hh; [discriminate|].
      rewrite post_unhashable by assumption. reflexivity. }
  destruct (eq_stored stored (get e "token")) eqn:Heq; cbn [negb].
  2:{ rewrite (post_denied e stored) by assumption. reflexivity. }
  rewrite post_unfold, process_event_valid by exact Hv. rewrite Hd, Heq.
  pose proof (present_fields e Hp) as (Hid & _ & _).
  apply get_lookup in Hid.
  destruct (eq_str (get e "type") "STARTUP") eqn:Hs.
  - unfold handler. rewrite Hs.
    destruct (bind_integer (get e "id")) as [k|] eqn:Hk.
    + destruct (has_id k (table st)) eqn:Hold.
      * rewrite (handle_startup_known e _ k) by (try eassumption; reflexivity).
        reflexivity.
      * rewrite (handle_startup_new e _ k) by (try eassumption; reflexivity).
        reflexivity.
    + rewrite (handle_startup_unstorable e _) by (try eassumption; reflexivity).
      reflexivity.
  - destruct (handler_stub (get e "type") e
                (log (Logged INFO "Event: " (Some e)) (fresh st)) Hty Hs)
      as (msg & _ & ->).
    reflexivity.
Qed.

Lemma int_of_bind_integer (v : pyval) :
  int_of v = Some 1%Z -> bind_integer v = Some 1%Z.
Proof.
  destruct v as [|b|z|f| | |]; simpl; try discriminate.
  - intros H. exact H.
  - intros [= ->]. reflexivity.
  - intros ->. reflexivity.
Qed.

(** A request leaves the table as it was, or adds the row of device 1,
    which the table did not hold. *)
Lemma post_table (e : event) (st : state) :
  table (snd (post e st)) = table st \/
  (has_id 1 (table st) = false /\
   fst (post e st) = Ok (Text EmptyString) /\
   table (snd (post e st)) = insert_row (mkRow 1 "Another Dispenser" 20 0) (table st)).
Proof.
  pose proof (post_outcome e st) as H. unfold outcome in H.
  destruct (truthy (get e "id") && truthy (get e "token") && truthy (get e "type"))
    eqn:Hp; cbn [negb] in H; [|left; congruence].
  destruct (negb _); [left; congruence|].
  rewrite dict_get_permitted in H.
  destruct (hashable (get e "id")); [|left; congruence].
  destruct (eq_stored _ (get e "token")) eqn:Heq; cbn [negb] in H;
    [|left; congruence].
  destruct (eq_str (get e "type") "STARTUP"); [|left; congruence].
  case_bool_decide as Hk.
  - rewrite (int_of_bind_integer _ Hk) in H.
    destruct (has_id 1 (table st)) eqn:Hold; [left; congruence|].
    right. injection H as H1 H2. auto.
  - apply (present_fields e) in Hp as (_ & Htok & _).
    destruct (get e "token"); simpl in Heq, Htok; discriminate.
Qed.

Lemma blank_falsy (o : option pyval) : blank o -> truthy (default PyNone o) = false.
Proof. intros [->|[->|[->|[->| ->]]]]; reflexivity. Qed.

Lemma blank_not_present (e : event) :
  blank (e !! "id") \/ blank (e !! "token") \/ blank (e !! "type") ->
  present e = false.
Proof.
  unfold present, get. intros [H|[H|H]]; apply blank_falsy in H; rewrite H.
  - reflexivity.
  - apply andb_false_iff. left. apply andb_false_r.
  - apply andb_false_r.
Qed.

Lemma rejected_added (k : rejection) (e : event) (st : state) :
  added st (snd (rejected k e st)) =
    [Logged INFO "Event: " (Some e); Logged WARNING (warning k) None].
Proof. unfold added, rejected. cbn [snd trace]. apply drop_app_length. Qed.

Lemma rejection_quiet (k : rejection) (e : event) :
  let tr := [Logged INFO "Event: " (Some e); Logged WARNING (warning k) None] in
  ~ dispatched tr /\ ~ relayed tr.
Proof.
  split.
  - intros (msg & arg & Hm & Hin).
    apply elem_of_cons in Hin as [Heq|Hin].
    + injection Heq as -> _. unfold handler_lines in Hm.
      repeat (apply elem_of_cons in Hm as [Hm|Hm]; [discriminate|]).
      inversion Hm.
    + apply elem_of_cons in Hin as [Heq|Hin]; [discriminate|inversion Hin].
  - intros (topic & e' & Hin).
    apply elem_of_cons in Hin as [Heq|Hin]; [discriminate|].
    apply elem_of_cons in Hin as [Heq|Hin]; [discriminate|inversion Hin].
Qed.

Lemma outcome_startup_one (t : list row) :
  outcome (PyInt 1) (PyStr "42x5yz") (PyStr "STARTUP") t =
    if has_id 1 t then (Error 500, t)
    else (Ok (Text EmptyString), insert_row (mkRow 1 "Another Dispenser" 20 0) t).
Proof. reflexivity. Qed.

(** [insert_row] adds the row and keeps the others. *)
Lemma insert_row_perm (r : row) (t : list row) : insert_row r t ≡ₚ r :: t.
Proof.
  induction t as [|x t IH]; cbn [insert_row]; [reflexivity|].
  destruct (row_id r <? row_id x)%Z; [reflexivity|].
  rewrite IH. apply Permutation_swap.
Qed.

Lemma has_id_insert_row (k : Z) (r : row) (t : list row) :
  has_id k (insert_row r t) = (row_id r =? k)%Z || has_id k t.
Proof.
  unfold has_id. induction t as [|x t IH]; cbn [insert_row existsb]; [reflexivity|].
  destruct (row_id r <? row_id x)%Z; cbn [existsb]; [reflexivity|].
  rewrite IH. destruct (row_id r =? k)%Z, (row_id x =? k)%Z; reflexivity.
Qed.

(** C1. A STARTUP event with id 1 and the token "42x5yz", arriving when
    the registry has no record for id 1, is answered with status 200 and
    the empty body, and the registry holds, once the request is over, the
    records it held and one more, a record for id 1 with dispensed 0 and
    capacity 20. *)
Theorem startup_registers_device (e : event) (st : state) :
  e !! "id" = Some (PyInt 1) ->
  e !! "token" = Some (PyStr "42x5yz") ->
  e !! "type" = Some (PyStr "STARTUP") ->
  has_id 1 (table st) = false ->
  fst (post e st) = Ok (Text EmptyString) /\
  status (fst (post e st)) = 200%Z /\
  table (snd (post e st)) ≡ₚ mkRow 1 "Another Dispenser" 20 0 :: table st /\
  exists r, r ∈ table (snd (post e st)) /\
    row_id r = 1%Z /\ row_dispensed r = 0%Z /\ row_capacity r = 20%Z.
Proof.
  intros Hid Htok Hty Hnew.
  pose proof (post_outcome e st) as H.
  rewrite (lookup_get _ _ _ Hid), (lookup_get _ _ _ Htok), (lookup_get _ _ _ Hty) in H.
  rewrite outcome_startup_one, Hnew in H. injection H as H1 H2.
  rewrite H1, H2. split; [reflexivity|]. split; [reflexivity|].
  split; [apply insert_row_perm|].
  exists (mkRow 1 "Another Dispenser" 20 0). repeat split.
  rewrite insert_row_perm. apply elem_of_cons. left. reflexivity.
Qed.

Lemma startup_registers_device_witness :
  let e := make_event (PyInt 1) (PyStr "42x5yz") (PyStr "STARTUP") in
  let st := mkState [mkRow 7 "Seven" 20 3] [] [] in
  fst (post e st) = Ok (Text EmptyString) /\
  status (fst (post e st)) = 200%Z /\
  table (snd (post e st)) ≡ₚ mkRow 1 "Another Dispenser" 20 0 :: table st /\
  exists r, r ∈ table (snd (post e st)) /\
    row_id r = 1%Z /\ row_dispensed r = 0%Z /\ row_capacity r = 20%Z.
Proof.
  apply (startup_registers_device
           (make_event (PyInt 1) (PyStr "42x5yz") (PyStr "STARTUP"))
           (mkState [mkRow 7 "Seven" 20 3] [] []));
    reflexivity.
Defined.

(** C3. An event in which id, token or type is absent, null or empty is
    rejected as MissingField with status 400: the table is left as it was,
    no handler is dispatched and nothing is sent to the relay. *)
Theorem missing_field_rejected (e : event) (st : state) :
  blank (e !! "id") \/ blank (e !! "token") \/ blank (e !! "type") ->
  post e st = rejected MissingField e st /\
  status (fst (post e st)) = 400%Z /\
  table (snd (post e st)) = table st /\
  ~ dispatched (added st (snd (post e st))) /\
  ~ relayed (added st (snd (post e st))).
Proof.
  intros H. apply blank_not_present in H.
  rewrite (post_missing e st H), rejected_added.
  repeat split; apply (rejection_quiet MissingField e).
Qed.

Lemma missing_field_rejected_witness :
  let e : event := <["token" := PyStr "42x5yz"]> (<["type" := PyStr "STARTUP"]> ∅) in
  post e empty_state = rejected MissingField e empty_state /\
  status (fst (post e empty_state)) = 400%Z /\
  table (snd (post e empty_state)) = table empty_state /\
  ~ dispatched (added empty_state (snd (post e empty_state))) /\
  ~ relayed (added empty_state (snd (post e empty_state))).
Proof.
  apply (missing_field_rejected
           (<["token" := PyStr "42x5yz"]> (<["type" := PyStr "STARTUP"]> ∅))
           empty_state).
  left. left. reflexivity.
Defined.

Lemma has_id_elem (k : Z) (t : list row) :
  has_id k t = true <-> exists r, r ∈ t /\ row_id r = k.
Proof.
  unfold has_id. rewrite existsb_exists. split.
  - intros (r & Hin & Heq). exists r. split; [apply list_elem_of_In; exact Hin|].
    apply Z.eqb_eq. exact Heq.
  - intros (r & Hin & Heq). exists r. split; [apply list_elem_of_In; exact Hin|].
    apply Z.eqb_eq. exact Heq.
Qed.

Lemma unique_not_duplicated (k : Z) (t : list row) :
  unique_ids t -> ~ duplicated k t.
Proof.
  intros Hu (i & j & r1 & r2 & Hij & Hi & Hj & H1 & H2). apply Hij.
  apply (NoDup_lookup (map row_id t) i j k Hu).
  - rewrite list_lookup_fmap, Hi. simpl. congruence.
  - rewrite list_lookup_fmap, Hj. simpl. congruence.
Qed.

Lemma unique_ids_insert_row (r : row) (t : list row) :
  unique_ids t -> has_id (row_id r) t = false -> unique_ids (insert_row r t).
Proof.
  intros Hu Hnew. unfold unique_ids. rewrite (insert_row_perm r t). cbn [map].
  apply NoDup_cons. split; [|exact Hu].
  intros Hin. apply list_elem_of_fmap in Hin as (x & Hx & Hin).
  assert (has_id (row_id r) t = true) as Hc
    by (apply has_id_elem; exists x; split; [exact Hin | congruence]).
  congruence.
Qed.

(** Every request keeps the primary key. *)
Lemma post_unique_ids (e : event) (st : state) :
  unique_ids (table st) -> unique_ids (table (snd (post e st))).
Proof.
  intros Hu. destruct (post_table e st) as [->|(Hnew & _ & ->)]; [exact Hu|].
  apply unique_ids_insert_row; assumption.
Qed.

Lemma post_startup_known (e : event) (st : state) (k : Z) :
  valid e = true -> authenticated e = true ->
  get e "type" = PyStr "STARTUP" ->
  int_of (get e "id") = Some k -> has_id k (table st) = true ->
  post e st =
    (Error 500,
     mkState (table st) []
       (trace st ++ [Logged INFO "Event: " (Some e);
                     Logged INFO "Processing STARTUP event: " (Some e)])).
Proof.
  intros Hv Ha Hty Hk Hold.
  destruct (authenticated_inv e Hv Ha) as [H1 _].
  assert (k = 1%Z) as -> by congruence.
  pose proof (valid_fields e Hv) as [Hp _].
  apply present_fields in Hp as (Hid & _ & _). apply get_lookup in Hid.
  rewrite post_unfold, process_event_authenticated by assumption.
  unfold handler. rewrite Hty. cbn [eq_str]. rewrite String.eqb_refl.
  rewrite (handle_startup_known e (get e "id") 1%Z);
    [|exact Hid|apply int_of_bind_integer; exact H1|reflexivity|exact Hold].
  unfold fresh, log. cbn [table session trace respond].
  rewrite <- app_assoc. reflexivity.
Qed.

(** C2, counterexample. Device 1 is registered and sends STARTUP again: the
    registry does not hold two records with id 1 afterwards. *)
Lemma startup_duplicates_fails :
  ~ startup_duplicates
      (make_event (PyInt 1) (PyStr "42x5yz") (PyStr "STARTUP"))
      (mkState [mkRow 1 "Another Dispenser" 20 0] [] []).
Proof.
  intros H. specialize (H eq_refl eq_refl eq_refl 1%Z eq_refl eq_refl).
  revert H. apply unique_not_duplicated.
  rewrite (post_startup_known _ _ 1%Z) by reflexivity.
  cbn [snd table]. unfold unique_ids. simpl. apply NoDup_singleton.
Qed.

(** C2, amended. A valid, authenticated STARTUP event whose id already has
    a record creates no second record: the primary key of the table
    refuses the INSERT and the registry is left exactly as it was, so it
    holds no two records for the id when its ids were unique. *)
Theorem startup_known_id_no_duplicate (e : event) (st : state) (k : Z) :
  valid e = true -> authenticated e = true ->
  get e "type" = PyStr "STARTUP" ->
  int_of (get e "id") = Some k -> has_id k (table st) = true ->
  table (snd (post e st)) = table st /\
  (unique_ids (table st) -> ~ duplicated k (table (snd (post e st)))).
Proof.
  intros Hv Ha Hty Hk Hold.
  rewrite (post_startup_known e st k) by assumption.
  cbn [snd table]. split; [reflexivity|]. apply unique_not_duplicated.
Qed.

Lemma startup_known_id_no_duplicate_witness :
  let e := make_event (PyInt 1) (PyStr "42x5yz") (PyStr "STARTUP") in
  let st := mkState [mkRow 1 "Another Dispenser" 20 0] [] [] in
  table (snd (post e st)) = table st /\
  (unique_ids (table st) -> ~ duplicated 1 (table (snd (post e st)))).
Proof.
  apply (startup_known_id_no_duplicate
           (make_event (PyInt 1) (PyStr "42x5yz") (PyStr "STARTUP"))
           (mkState [mkRow 1 "Another Dispenser" 20 0] [] []) 1%Z);
    reflexivity.
Defined.

(** C4, counterexample. The id 0 is present, the type "FOO" is not legal,
    and the event is rejected by the presence check, as MissingField. *)
Lemma illegal_type_rejected_when_present_fails :
  ~ illegal_type_rejected_when_present
      (make_event (PyInt 0) (PyStr "42x5yz") (PyStr "FOO")) empty_state.
Proof.
  intros H.
  assert (Hnb : forall v : pyval,
             v = PyInt 0 \/ v = PyStr "42x5yz" \/ v = PyStr "FOO" ->
             ~ blank (Some v)).
  { intros v Hv [Hb|[Hb|[Hb|[Hb|Hb]]]]; destruct Hv as [->|[->| ->]]; discriminate. }
  specialize (H (Hnb _ (or_introl eq_refl))
                (Hnb _ (or_intror (or_introl eq_refl)))
                (Hnb _ (or_intror (or_intror eq_refl))) eq_refl).
  rewrite post_missing in H by reflexivity. discriminate H.
Qed.

(** C4, amended. An event whose id, token and type pass the presence check
    (each is truthy: not absent, null, empty, zero or false) and whose type
    is not one of the five legal types is rejected as IllegalType with
    status 400. The table is left as it was and no handler runs; the answer
    is the same for every id and token, also those [permitted] raises on:
    the credential table is not consulted. *)
Theorem illegal_type_rejected (e : event) (st : state) :
  present e = true ->
  in_strs (get e "type") legal_types = false ->
  post e st = rejected IllegalType e st /\
  status (fst (post e st)) = 400%Z /\
  table (snd (post e st)) = table st /\
  ~ dispatched (added st (snd (post e st))) /\
  ~ relayed (added st (snd (post e st))).
Proof.
  intros Hp Hty.
  rewrite (post_illegal e st Hp Hty), rejected_added.
  repeat split; apply (rejection_quiet IllegalType e).
Qed.

Lemma illegal_type_rejected_witness :
  let e := make_event (PyInt 1) (PyStr "42x5yz") (PyStr "FOO") in
  post e empty_state = rejected IllegalType e empty_state /\
  status (fst (post e empty_state)) = 400%Z /\
  table (snd (post e empty_state)) = table empty_state /\
  ~ dispatched (added empty_state (snd (post e empty_state))) /\
  ~ relayed (added empty_state (snd (post e empty_state))).
Proof.
  apply (illegal_type_rejected
           (make_event (PyInt 1) (PyStr "42x5yz") (PyStr "FOO")) empty_state);
    reflexivity.
Defined.

(** An illegal type is answered with 400 where authentication would have
    raised: the id is a list, which [permitted] cannot look up. *)
Lemma illegal_type_precedes_authentication :
  let e := make_event (PyList [PyInt 1]) (PyStr "42x5yz") (PyStr "FOO") in
  dict_get permitted_devices (get e "id") = Raise TypeError /\
  post e empty_state = rejected IllegalType e empty_state.
Proof. split; [reflexivity|]. apply post_illegal; reflexivity. Qed.

Lemma eq_str_true (v : pyval) (s : string) : eq_str v s = true <-> v = PyStr s.
Proof.
  destruct v; simpl; try (split; [discriminate | intros [=]]).
  rewrite String.eqb_eq. split; congruence.
Qed.

Lemma mismatch_fails_authentication (e : event) :
  valid e = true -> hashable (get e "id") = true -> ~ token_matches e ->
  fails_authentication e.
Proof.
  intros Hv Hh Hn. unfold fails_authentication, dict_get. rewrite Hh.
  eexists. split; [reflexivity|].
  apply valid_fields in Hv as [Hp _]. apply present_fields in Hp as (_ & Htok & _).
  destruct (int_of (get e "id")) as [z|] eqn:Hz.
  - destruct (permitted_devices !! z) as [s|] eqn:Hs.
    + simpl. apply not_true_is_false. intros Heq. apply eq_str_true in Heq.
      apply Hn. exists z, s. auto.
    + destruct (get e "token"); simpl in *; congruence.
  - destruct (get e "token"); simpl in *; congruence.
Qed.

Lemma int_of_hashable (v : pyval) (z : Z) : int_of v = Some z -> hashable v = true.
Proof. destruct v; simpl; (discriminate || reflexivity). Qed.

(** The two ways to fail authentication: a known id with another token,
    and an id that can be looked up and has no entry. *)
Lemma known_id_wrong_token_fails (e : event) :
  known_id_wrong_token e -> fails_authentication e.
Proof.
  intros (z & s & Hz & Hs & Hne). exists (Some s). split.
  - unfold dict_get. rewrite (int_of_hashable _ _ Hz), Hz, Hs. reflexivity.
  - simpl. apply not_true_is_false. intros H. apply eq_str_true in H. auto.
Qed.

Lemma unknown_id_fails (e : event) :
  valid e = true -> hashable (get e "id") = true -> unknown_id e ->
  fails_authentication e.
Proof.
  intros Hv Hh Hu. exists None. split.
  - unfold dict_get. rewrite Hh. f_equal.
    destruct (int_of (get e "id")) as [z|] eqn:Hz; [apply Hu; exact Hz|reflexivity].
  - apply valid_fields in Hv as [Hp _]. apply present_fields in Hp as (_ & Htok & _).
    destruct (get e "token"); simpl in *; congruence.
Qed.

(** An event whose id can be looked up and whose token is not the stored
    one is rejected as Unauthenticated. *)
Lemma mismatch_rejected (e : event) (st : state) :
  valid e = true -> hashable (get e "id") = true -> ~ token_matches e ->
  post e st = rejected Unauthenticated e st /\
  status (fst (post e st)) = 401%Z /\
  table (snd (post e st)) = table st /\
  ~ dispatched (added st (snd (post e st))).
Proof.
  intros Hv Hh Hn.
  destruct (mismatch_fails_authentication e Hv Hh Hn) as (stored & Hd & Hne).
  rewrite (post_denied e stored st Hv Hd Hne), rejected_added.
  repeat split. apply (rejection_quiet Unauthenticated e).
Qed.

(** C5, at the failing input. The event is structurally valid and its
    token matches no stored token (its id, a list, has no entry), yet it is
    not rejected as Unauthenticated: the lookup of the id raises
    [TypeError] and the answer is 500. The table is left as it was and no
    handler runs. *)
Theorem unhashable_id_not_rejected :
  let e := make_event (PyList [PyInt 1]) (PyStr "42x5yz") (PyStr "STARTUP") in
  valid e = true /\ ~ token_matches e /\
  process_event e empty_state = (Raise TypeError, empty_state) /\
  post e empty_state =
    (Error 500, mkState [] [] [Logged INFO "Event: " (Some e)]) /\
  status (fst (post e empty_state)) <> 401%Z.
Proof.
  intros e. split; [reflexivity|]. split.
  - intros (z & s & Hz & _). discriminate Hz.
  - split; [|split].
    + rewrite process_event_valid by reflexivity. reflexivity.
    + apply post_unhashable; reflexivity.
    + rewrite post_unhashable by reflexivity. discriminate.
Qed.

(** Two events that fail authentication, one with a known id and another
    token, one with an id that can be looked up and has no entry, are
    rejected alike, as Unauthenticated. *)
Lemma unauthenticated_uniform_hashable (e1 e2 : event) (st1 st2 : state) :
  valid e1 = true -> valid e2 = true ->
  known_id_wrong_token e1 -> unknown_id e2 -> hashable (get e2 "id") = true ->
  fst (post e1 st1) = fst (post e2 st2) /\
  post e1 st1 = rejected Unauthenticated e1 st1 /\
  post e2 st2 = rejected Unauthenticated e2 st2.
Proof.
  intros Hv1 Hv2 H1 H2 Hh.
  destruct (known_id_wrong_token_fails e1 H1) as (s1 & Hd1 & Hn1).
  destruct (unknown_id_fails e2 Hv2 Hh H2) as (s2 & Hd2 & Hn2).
  rewrite (post_denied e1 s1 st1 Hv1 Hd1 Hn1), (post_denied e2 s2 st2 Hv2 Hd2 Hn2).
  repeat split.
Qed.

(** C6, at the failing input. Two structurally valid events, neither
    authenticated: the id of the first has an entry in the credential
    table, with another token; the id of the second, a list, has none. The
    first is answered with 401, the second with 500, the lookup of its id
    having raised [TypeError]: the responses differ. *)
Theorem unauthenticated_not_uniform :
  let e1 := make_event (PyInt 1) (PyStr "wrong") (PyStr "STARTUP") in
  let e2 := make_event (PyList [PyInt 1]) (PyStr "wrong") (PyStr "STARTUP") in
  valid e1 = true /\ valid e2 = true /\
  known_id_wrong_token e1 /\ unknown_id e2 /\
  authenticated e1 = false /\ authenticated e2 = false /\
  fst (post e1 empty_state) = Error 401 /\
  fst (post e2 empty_state) = Error 500 /\
  fst (post e1 empty_state) <> fst (post e2 empty_state).
Proof.
  intros e1 e2.
  assert (H1 : fst (post e1 empty_state) = Error 401)
    by (unfold e1; rewrite (post_denied _ (Some "42x5yz")) by reflexivity;
        reflexivity).
  assert (H2 : fst (post e2 empty_state) = Error 500)
    by (unfold e2; rewrite post_unhashable by reflexivity; reflexivity).
  repeat split; try reflexivity; try assumption.
  - exists 1%Z, "42x5yz". repeat split. discriminate.
  - intros z Hz. discriminate Hz.
  - rewrite H1, H2. discriminate.
Qed.

(** C7. A valid, authenticated event of type DISPENSE, REFILL, REFILLED or
    EMPTY is accepted and leaves the table as it was, every field of every
    record included: its handler writes one line to the log and nothing
    else. *)
Theorem stub_handlers_leave_registry (e : event) (st : state) :
  valid e = true -> authenticated e = true ->
  get e "type" ∈ [PyStr "DISPENSE"; PyStr "REFILL"; PyStr "REFILLED"; PyStr "EMPTY"] ->
  fst (post e st) = Ok (Text EmptyString) /\
  table (snd (post e st)) = table st /\
  exists msg, added st (snd (post e st)) =
    [Logged INFO "Event: " (Some e); Logged INFO msg (Some e)].
Proof.
  intros Hv Ha Hty.
  assert (Hs : eq_str (get e "type") "STARTUP" = false).
  { repeat (apply elem_of_cons in Hty as [->|Hty]; [reflexivity|]). inversion Hty. }
  pose proof (valid_fields e Hv) as [_ Hin].
  rewrite post_unfold, process_event_authenticated by assumption.
  destruct (handler_stub (get e "type") e
              (log (Logged INFO "Event: " (Some e)) (fresh st)) Hin Hs)
    as (msg & _ & ->).
  unfold fresh, log. cbn [fst snd table trace]. repeat split.
  exists msg. unfold added. cbn [trace]. rewrite <- app_assoc.
  apply drop_app_length.
Qed.

Lemma stub_handlers_leave_registry_witness :
  let e := make_event (PyInt 1) (PyStr "42x5yz") (PyStr "DISPENSE") in
  let st := mkState [mkRow 1 "Another Dispenser" 20 0] [] [] in
  fst (post e st) = Ok (Text EmptyString) /\
  table (snd (post e st)) = table st /\
  exists msg, added st (snd (post e st)) =
    [Logged INFO "Event: " (Some e); Logged INFO msg (Some e)].
Proof.
  apply (stub_handlers_leave_registry
           (make_event (PyInt 1) (PyStr "42x5yz") (PyStr "DISPENSE"))
           (mkState [mkRow 1 "Another Dispenser" 20 0] [] [])).
  - reflexivity.
  - reflexivity.
  - apply elem_of_cons. left. reflexivity.
Defined.

(** C8. If every record of the registry satisfies 0 <= dispensed <=
    capacity before an event is processed, every record does afterwards,
    whatever the event. *)
Theorem invariant_preserved (e : event) (st : state) :
  Forall bounded (table st) -> Forall bounded (table (snd (post e st))).
Proof.
  intros Hb. destruct (post_table e st) as [->|(_ & _ & ->)]; [exact Hb|].
  rewrite insert_row_perm. apply Forall_cons. split; [|exact Hb].
  unfold bounded. simpl. lia.
Qed.

Lemma invariant_preserved_witness :
  Forall bounded
    (table (snd (post (make_event (PyInt 1) (PyStr "42x5yz") (PyStr "STARTUP"))
                      (mkState [mkRow 7 "Seven" 20 3] [] [])))).
Proof.
  apply (invariant_preserved
           (make_event (PyInt 1) (PyStr "42x5yz") (PyStr "STARTUP"))
           (mkState [mkRow 7 "Seven" 20 3] [] [])).
  apply Forall_singleton. unfold bounded. simpl. lia.
Defined.

Lemma rejected_inj (k k' : rejection) (e : event) (st : state) :
  rejected k e st = rejected k' e st -> k = k'.
Proof.
  unfold rejected. intros H. injection H as _ Ht.
  apply app_inv_head in Ht. injection Ht as Hw.
  destruct k, k'; (reflexivity || discriminate Hw).
Qed.

(** [rejection_of] tells how a request is rejected; when it gives nothing,
    the response is none of the rejections. *)
Lemma post_rejection (e : event) (st : state) :
  match rejection_of (get e "id") (get e "token") (get e "type") with
  | Some k => post e st = rejected k e st
  | None => forall k, fst (post e st) <> Error (code k)
  end.
Proof.
  pose proof (post_outcome e st) as Ho. unfold outcome in Ho.
  unfold rejection_of. fold (present e) in Ho |- *.
  destruct (present e) eqn:Hp; cbn [negb] in Ho |- *;
    [|apply post_missing; exact Hp].
  destruct (in_strs (get e "type") legal_types) eqn:Hty; cbn [negb] in Ho |- *;
    [|apply post_illegal; assumption].
  assert (Hv : valid e = true) by (unfold valid; rewrite Hp, Hty; reflexivity).
  destruct (dict_get permitted_devices (get e "id")) as [stored|x] eqn:Hd.
  - destruct (eq_stored stored (get e "token")) eqn:Heq; cbn [negb] in Ho |- *;
      [|apply (post_denied e stored); assumption].
    intros k Hk. rewrite Hk in Ho.
    destruct (eq_str (get e "type") "STARTUP");
      [destruct (bind_integer (get e "id")); [destruct (has_id _ _)|]|];
      destruct k; discriminate Ho.
  - intros k Hk. rewrite Hk in Ho. destruct k; discriminate Ho.
Qed.

Lemma post_rejected_iff (e : event) (st : state) (k : rejection) :
  post e st = rejected k e st <->
  rejection_of (get e "id") (get e "token") (get e "type") = Some k.
Proof.
  pose proof (post_rejection e st) as H.
  destruct (rejection_of _ _ _) as [k'|]; split.
  - intros Hk. rewrite H in Hk. apply rejected_inj in Hk. congruence.
  - intros [= ->]. exact H.
  - intros Hk. exfalso. apply (H k). rewrite Hk. reflexivity.
  - discriminate.
Qed.

(** C9. Two events that agree on id, token and type, whatever other fields
    they carry, get the same response and leave the same table, when they
    arrive in the same state, and one is rejected as MissingField,
    IllegalType or Unauthenticated exactly when the other is: no field but
    these three is read. *)
Theorem payload_noninterference (e1 e2 : event) (st : state) :
  e1 !! "id" = e2 !! "id" ->
  e1 !! "token" = e2 !! "token" ->
  e1 !! "type" = e2 !! "type" ->
  fst (post e1 st) = fst (post e2 st) /\
  table (snd (post e1 st)) = table (snd (post e2 st)) /\
  (forall k, post e1 st = rejected k e1 st <-> post e2 st = rejected k e2 st).
Proof.
  intros Hid Htok Hty. split; [|split].
  - pose proof (post_outcome e1 st) as H1. pose proof (post_outcome e2 st) as H2.
    unfold get in H1, H2. rewrite Hid, Htok, Hty in H1. rewrite <- H2 in H1.
    injection H1 as Hr Ht. exact Hr.
  - pose proof (post_outcome e1 st) as H1. pose proof (post_outcome e2 st) as H2.
    unfold get in H1, H2. rewrite Hid, Htok, Hty in H1. rewrite <- H2 in H1.
    injection H1 as Hr Ht. exact Ht.
  - intros k. rewrite !post_rejected_iff. unfold get. rewrite Hid, Htok, Hty.
    reflexivity.
Qed.

Lemma payload_noninterference_witness :
  let e1 := make_event (PyInt 1) (PyStr "42x5yz") (PyStr "STARTUP") in
  let e2 : event :=
    <["capacity" := PyInt 99]> (<["name" := PyStr "Mine"]>
      (<["dispensed" := PyInt 50]> e1)) in
  fst (post e1 empty_state) = fst (post e2 empty_state) /\
  table (snd (post e1 empty_state)) = table (snd (post e2 empty_state)) /\
  (forall k, post e1 empty_state = rejected k e1 empty_state <->
             post e2 empty_state = rejected k e2 empty_state).
Proof.
  apply (payload_noninterference
           (make_event (PyInt 1) (PyStr "42x5yz") (PyStr "STARTUP"))
           (<["capacity" := PyInt 99]> (<["name" := PyStr "Mine"]>
              (<["dispensed" := PyInt 50]>
                 (make_event (PyInt 1) (PyStr "42x5yz") (PyStr "STARTUP")))))
           empty_state); reflexivity.
Defined.

Lemma post_keeps_zero_out (e : event) (st : state) :
  has_id 0 (table st) = false -> has_id 0 (table (snd (post e st))) = false.
Proof.
  intros H. destruct (post_table e st) as [->|(_ & _ & ->)]; [exact H|].
  rewrite has_id_insert_row, H. reflexivity.
Qed.

Lemma run_keeps_zero_out (es : list event) (st : state) :
  has_id 0 (table st) = false -> has_id 0 (table (run es st)) = false.
Proof.
  revert st. induction es as [|e es IH]; intros st H; [exact H|].
  apply IH, post_keeps_zero_out, H.
Qed.

(** Only a device whose id is equal to 1 is ever admitted. *)
Lemma accepted_id_one (e : event) (st : state) (b : body) :
  fst (post e st) = Ok b -> int_of (get e "id") = Some 1%Z.
Proof.
  intros H. pose proof (post_outcome e st) as Ho. rewrite H in Ho.
  unfold outcome in Ho. rewrite dict_get_permitted in Ho.
  destruct (truthy (get e "id") && truthy (get e "token") && truthy (get e "type"))
    eqn:Hp; cbn [negb] in Ho; [|discriminate].
  destruct (negb _); [discriminate|].
  destruct (hashable _); [|discriminate].
  case_bool_decide as Hk; [exact Hk|].
  apply (present_fields e) in Hp as (_ & Htok & _).
  destruct (get e "token"); simpl in Htok, Ho; discriminate.
Qed.

(** C10. The presence check takes a falsy id for an absent one: an event
    whose id is the integer 0 is rejected with status 400 as MissingField,
    whatever its token and type, and the table is left as it was. So no
    event with id 0 is admitted, and a registry without a record for id 0
    has none after any sequence of requests. *)
Theorem id_zero_never_accepted (e : event) (st : state) :
  e !! "id" = Some (PyInt 0) ->
  has_id 0 (table st) = false ->
  post e st = rejected MissingField e st /\
  status (fst (post e st)) = 400%Z /\
  table (snd (post e st)) = table st /\
  (forall (e' : event) (st' : state) (b : body),
     fst (post e' st') = Ok b -> get e' "id" <> PyInt 0) /\
  (forall es : list event, has_id 0 (table (run es st)) = false).
Proof.
  intros Hid H0.
  assert (Hp : present e = false)
    by (unfold present; rewrite (lookup_get _ _ _ Hid); reflexivity).
  rewrite (post_missing e st Hp). repeat split.
  - intros e' st' b Hok Hz. apply accepted_id_one in Hok.
    rewrite Hz in Hok. discriminate.
  - intros es. apply run_keeps_zero_out, H0.
Qed.

Lemma id_zero_never_accepted_witness :
  let e := make_event (PyInt 0) (PyStr "42x5yz") (PyStr "STARTUP") in
  post e empty_state = rejected MissingField e empty_state /\
  status (fst (post e empty_state)) = 400%Z /\
  table (snd (post e empty_state)) = table empty_state /\
  (forall (e' : event) (st' : state) (b : body),
     fst (post e' st') = Ok b -> get e' "id" <> PyInt 0) /\
  (forall es : list event, has_id 0 (table (run es empty_state)) = false).
Proof.
  apply (id_zero_never_accepted
           (make_event (PyInt 0) (PyStr "42x5yz") (PyStr "STARTUP")) empty_state);
    reflexivity.
Defined.


(** ** Further properties of the code *)

(** *** [permitted] *)

(** X1. [permitted] returns [True] in two cases only: the id is equal to 1
    (the integer 1, [True] or the float 1.0) and the token is the string
    "42x5yz"; or the id can be looked up, is not equal to 1, and the token
    is [None], since the missing entry and the token are then both [None]. *)
Theorem permitted_true_iff (id token : pyval) (st : state) :
  permitted id token st = (Return true, st) <->
  (int_of id = Some 1%Z /\ token = PyStr "42x5yz") \/
  (hashable id = true /\ int_of id <> Some 1%Z /\ token = PyNone).
Proof.
  unfold permitted. rewrite dict_get_permitted.
  destruct (hashable id) eqn:Hh.
  - case_bool_decide as Hk; unfold ret; cbn [eq_stored]; split.
    + intros [= Heq]. left. split; [exact Hk|]. apply eq_str_true. exact Heq.
    + intros [[_ ->]|(_ & Hn & _)]; [reflexivity|contradiction].
    + intros [= Heq]. right. repeat split; [exact Hk|].
      destruct token; (reflexivity || discriminate).
    + intros [[Hc _]|(_ & _ & ->)]; [contradiction|reflexivity].
  - split.
    + discriminate.
    + intros [[Hk _]|(Hc & _)]; [|discriminate].
      apply int_of_hashable in Hk. congruence.
Qed.

(** The float 1.0 is equal to 1: with the token of device 1 it passes,
    and the STARTUP of such an event registers device 1. *)
Lemma permitted_float_one (st : state) :
  permitted (PyFloat float_one) (PyStr "42x5yz") st = (Return true, st).
Proof. apply permitted_true_iff. left. split; reflexivity. Qed.

Lemma startup_float_one :
  let e := make_event (PyFloat float_one) (PyStr "42x5yz") (PyStr "STARTUP") in
  fst (post e empty_state) = Ok (Text EmptyString) /\
  table (snd (post e empty_state)) = [device_one].
Proof. split; reflexivity. Qed.

(** *** The response to a POST *)

Lemma authenticated_hashable (e : event) :
  authenticated e = true -> hashable (get e "id") = true.
Proof.
  unfold authenticated, dict_get. destruct (hashable (get e "id")); [reflexivity|discriminate].
Qed.

Lemma fails_authentication_iff (e : event) :
  fails_authentication e <->
  hashable (get e "id") = true /\ authenticated e = false.
Proof.
  unfold fails_authentication, authenticated, dict_get.
  destruct (hashable (get e "id")); split.
  - intros (stored & [= <-] & Hne). auto.
  - intros [_ Hne]. eexists. split; [reflexivity | exact Hne].
  - intros (stored & Hd & _). discriminate Hd.
  - intros [Hc _]. discriminate Hc.
Qed.

(** The response to a POST, by the checks of [process_event] in their order. *)
Lemma post_response (e : event) (st : state) :
  fst (post e st) =
    if negb (valid e) then Error 400
    else if negb (hashable (get e "id")) then Error 500
    else if negb (authenticated e) then Error 401
    else if eq_str (get e "type") "STARTUP" && has_id 1 (table st) then Error 500
    else Ok (Text EmptyString).
Proof.
  pose proof (post_outcome e st) as H. apply (f_equal fst) in H. cbn [fst] in H.
  rewrite H. clear H. unfold outcome. fold (present e). unfold valid.
  destruct (present e) eqn:Hp; cbn [negb andb fst]; [|reflexivity].
  destruct (in_strs (get e "type") legal_types) eqn:Hty; cbn [negb fst]; [|reflexivity].
  assert (Hv : valid e = true) by (unfold valid; rewrite Hp, Hty; reflexivity).
  pose proof (authenticated_inv e Hv) as Hinv. revert Hinv.
  unfold authenticated, dict_get.
  destruct (hashable (get e "id")); cbn [negb fst]; [|reflexivity].
  destruct (eq_stored _ (get e "token")); cbn [negb fst]; [|reflexivity].
  intros Hinv. destruct (Hinv eq_refl) as [H1 _].
  rewrite (int_of_bind_integer _ H1).
  destruct (eq_str (get e "type") "STARTUP"); cbn [andb fst]; [|reflexivity].
  destruct (has_id 1 (table st)); reflexivity.
Qed.

(** X3. The response to a POST whose body is a JSON object is one of
    four, each under an exact condition on that object, the event: the
    empty body (200) when the event is valid and
    authenticated and, for STARTUP, device 1 is not registered yet; 400
    when the event is not valid; 401 when it is valid and [permitted]
    returns [False]; 500 when it is valid and its id is a list or a dict,
    or when it is an authenticated STARTUP and device 1 is registered. *)
Theorem post_response_cases (e : event) (st : state) :
  (fst (post e st) = Ok (Text EmptyString) <->
     valid e = true /\ authenticated e = true /\
     (get e "type" = PyStr "STARTUP" -> has_id 1 (table st) = false)) /\
  (fst (post e st) = Error 400 <-> valid e = false) /\
  (fst (post e st) = Error 401 <-> valid e = true /\ fails_authentication e) /\
  (fst (post e st) = Error 500 <->
     valid e = true /\
     (hashable (get e "id") = false \/
      (authenticated e = true /\ get e "type" = PyStr "STARTUP" /\
       has_id 1 (table st) = true))) /\
  fst (post e st) ∈ [Ok (Text EmptyString); Error 400; Error 401; Error 500].
Proof.
  rewrite fails_authentication_iff, <- (eq_str_true (get e "type") "STARTUP").
  rewrite post_response.
  pose proof (authenticated_hashable e) as Hah.
  destruct (valid e), (hashable (get e "id")), (authenticated e),
    (eq_str (get e "type") "STARTUP"), (has_id 1 (table st));
    cbn [negb andb]; repeat split; intros;
    repeat match goal with
           | H : _ /\ _ |- _ => destruct H
           | H : _ \/ _ |- _ => destruct H
           | H : true = true -> _ |- _ => specialize (H eq_refl)
           end;
    try discriminate; try congruence; auto;
    try (right; repeat split; congruence);
    set_solver.
Qed.

(** X4. The order of the checks: a POST is rejected as MissingField exactly
    when one of the three fields is falsy, whatever its type and its
    credentials; as IllegalType exactly when the three fields are truthy
    and the type is not legal; as Unauthenticated exactly when it is valid
    and [permitted] returns [False]. *)
Theorem rejection_order (e : event) (st : state) :
  (post e st = rejected MissingField e st <-> present e = false) /\
  (post e st = rejected IllegalType e st <->
     present e = true /\ in_strs (get e "type") legal_types = false) /\
  (post e st = rejected Unauthenticated e st <->
     valid e = true /\ fails_authentication e).
Proof.
  rewrite !post_rejected_iff, fails_authentication_iff.
  unfold rejection_of, valid, authenticated. fold (present e).
  destruct (present e); cbn [negb andb];
    [|repeat split; intros; repeat match goal with H : _ /\ _ |- _ => destruct H end;
      congruence].
  destruct (in_strs (get e "type") legal_types); cbn [negb];
    [|repeat split; intros; repeat match goal with H : _ /\ _ |- _ => destruct H end;
      congruence].
  unfold dict_get. destruct (hashable (get e "id"));
    [|repeat split; intros; repeat match goal with H : _ /\ _ |- _ => destruct H end;
      congruence].
  destruct (eq_stored _ (get e "token")); cbn [negb];
    repeat split; intros; repeat match goal with H : _ /\ _ |- _ => destruct H end;
    congruence.
Qed.

(** X5. Called on a JSON object, in a fresh session, [process_event]
    raises nothing but the two aborts, 400 and 401, the [TypeError] of the
    lookup and the [IntegrityError] of the INSERT: the subscripts
    [event['id']] and [event['token']] never raise [KeyError], since the
    presence check has passed when they run, and the id of an
    authenticated event can always be stored. *)
Theorem process_event_raises (e : event) (st : state) (x : exn) :
  session st = [] ->
  fst (process_event e st) = Raise x ->
  x ∈ [HTTPException 400; HTTPException 401; TypeError; IntegrityError].
Proof.
  intros Hs Hx.
  destruct (present e) eqn:Hp.
  2:{ rewrite process_event_missing in Hx by exact Hp.
      injection Hx as <-. repeat constructor. }
  destruct (in_strs (get e "type") legal_types) eqn:Hty.
  2:{ rewrite process_event_illegal in Hx by assumption.
      injection Hx as <-. repeat constructor. }
  assert (Hv : valid e = true) by (unfold valid; rewrite Hp, Hty; reflexivity).
  rewrite process_event_valid in Hx by exact Hv.
  pose proof (authenticated_inv e Hv) as Hinv. unfold authenticated in Hinv.
  destruct (dict_get permitted_devices (get e "id")) as [stored|x'] eqn:Hd.
  2:{ unfold dict_get in Hd. destruct (hashable _); [discriminate|].
      injection Hd as <-. injection Hx as <-. repeat constructor. }
  destruct (eq_stored stored (get e "token")).
  2:{ injection Hx as <-. repeat constructor. }
  destruct (Hinv eq_refl) as [H1 _]. apply int_of_bind_integer in H1.
  apply present_fields in Hp as (Hid & _ & _). apply get_lookup in Hid.
  destruct (eq_str (get e "type") "STARTUP") eqn:Hty'.
  - unfold handler in Hx. rewrite Hty' in Hx.
    destruct (has_id 1 (table st)) eqn:Hold.
    + rewrite (handle_startup_known e (get e "id") 1%Z) in Hx by assumption.
      injection Hx as <-. repeat constructor.
    + rewrite (handle_startup_new e (get e "id") 1%Z) in Hx by assumption.
      discriminate Hx.
  - destruct (handler_stub (get e "type") e st Hty Hty') as (msg & _ & Hh).
    rewrite Hh in Hx. discriminate Hx.
Qed.

Lemma process_event_raises_witness :
  TypeError ∈ [HTTPException 400; HTTPException 401; TypeError; IntegrityError].
Proof.
  apply (process_event_raises
           (make_event (PyDict [("n", PyInt 1)]) (PyStr "42x5yz") (PyStr "EMPTY"))
           empty_state TypeError); reflexivity.
Defined.

(** *** Sequences of requests *)

Lemma serve_GET (j : event) (st : state) :
  serve GET j st = (Ok (Template "index.html" (table st)), fresh st).
Proof. reflexivity. Qed.

Lemma serve_table (m : method) (j : event) (st : state) :
  table (snd (serve m j st)) = table st \/
  (has_id 1 (table st) = false /\
   fst (serve m j st) = Ok (Text EmptyString) /\
   table (snd (serve m j st)) = insert_row device_one (table st)).
Proof.
  destruct m; [left; reflexivity|]. exact (post_table j st).
Qed.

Lemma has_id_device_one (t : list row) : has_id 1 (insert_row device_one t) = true.
Proof. rewrite has_id_insert_row. reflexivity. Qed.

(** Whatever the requests, the table is left as it was or has gained the
    row of device 1, which it did not hold. *)
Lemma serve_all_table (rs : list (method * event)) (st : state) :
  table (serve_all rs st) = table st \/
  (has_id 1 (table st) = false /\
   table (serve_all rs st) = insert_row device_one (table st)).
Proof.
  revert st. induction rs as [|[m j] rs IH]; intros st; [left; reflexivity|].
  cbn [serve_all fold_left fst snd]. fold (serve_all rs (snd (serve m j st))).
  destruct (serve_table m j st) as [Hsame|(Hnew & _ & Hadd)].
  - rewrite <- Hsame. apply IH.
  - destruct (IH (snd (serve m j st))) as [Hk|[Hc _]].
    + right. split; [exact Hnew|]. rewrite Hk. exact Hadd.
    + rewrite Hadd, has_id_device_one in Hc. discriminate Hc.
Qed.

(** The INSERT keeps the rows in ascending order of id. *)
Lemma insert_row_ascending (r : row) (t : list row) :
  ascending t -> has_id (row_id r) t = false -> ascending (insert_row r t).
Proof.
  unfold ascending. induction t as [|x t IH]; intros Hs Hnew.
  - cbn [insert_row map]. repeat constructor.
  - cbn [map] in Hs. apply StronglySorted_inv in Hs as [Hs Hx].
    unfold has_id in Hnew. cbn [existsb] in Hnew.
    apply orb_false_iff in Hnew as [Hne Hnew]. apply Z.eqb_neq in Hne.
    cbn [insert_row]. destruct (row_id r <? row_id x)%Z eqn:Hlt.
    + apply Z.ltb_lt in Hlt. cbn [map]. constructor.
      * constructor; assumption.
      * constructor; [exact Hlt|].
        eapply Forall_impl; [exact Hx|]. intros y Hy. simpl in Hy. lia.
    + apply Z.ltb_ge in Hlt. cbn [map]. constructor.
      * apply IH; assumption.
      * rewrite (insert_row_perm r t). cbn [map]. constructor; [lia | exact Hx].
Qed.

(** X6. What a STARTUP registers, a later GET shows: after an accepted
    STARTUP of device 1 the overview, served by another request, lists the
    rows the table held and the row of device 1, by ascending id when the
    table was. *)
Theorem registration_listed (e j : event) (st : state) :
  valid e = true -> authenticated e = true -> get e "type" = PyStr "STARTUP" ->
  has_id 1 (table st) = false ->
  exists rows,
    fst (serve GET j (snd (post e st))) = Ok (Template "index.html" rows) /\
    rows ≡ₚ device_one :: table st /\
    (ascending (table st) -> ascending rows).
Proof.
  intros Hv Ha Hty Hnew. rewrite serve_GET. cbn [fst].
  exists (table (snd (post e st))). split; [reflexivity|].
  assert (Ht : table (snd (post e st)) = insert_row device_one (table st)).
  { pose proof (post_outcome e st) as H.
    destruct (authenticated_inv e Hv Ha) as [H1 _].
    pose proof (valid_fields e Hv) as [Hp Hin].
    unfold outcome in H. unfold present in Hp. rewrite Hp, Hin in H.
    unfold authenticated in Ha.
    destruct (dict_get permitted_devices (get e "id")); [|discriminate Ha].
    rewrite Ha, Hty, (int_of_bind_integer _ H1), Hnew in H.
    cbn [negb eq_str] in H. rewrite String.eqb_refl in H.
    injection H as _ H. exact H. }
  rewrite Ht. split; [apply insert_row_perm|].
  intros Hs. apply insert_row_ascending; assumption.
Qed.

Lemma registration_listed_witness :
  let e := make_event (PyInt 1) (PyStr "42x5yz") (PyStr "STARTUP") in
  let st := mkState [mkRow 7 "Seven" 20 3] [] [] in
  exists rows,
    fst (serve GET ∅ (snd (post e st))) = Ok (Template "index.html" rows) /\
    rows ≡ₚ device_one :: table st /\
    (ascending (table st) -> ascending rows).
Proof.
  apply (registration_listed
           (make_event (PyInt 1) (PyStr "42x5yz") (PyStr "STARTUP")) ∅
           (mkState [mkRow 7 "Seven" 20 3] [] [])); reflexivity.
Defined.

(** X7. No request removes or changes a record, and the gateway registers
    one device at most: after any sequence of requests the table is the
    table before, or it holds the rows of the table before and one more,
    the row (1, 'Another Dispenser', 20, 0), and the latter only if no row
    had id 1. *)
Theorem registry_grows_by_device_one (rs : list (method * event)) (st : state) :
  table (serve_all rs st) = table st \/
  (has_id 1 (table st) = false /\
   table (serve_all rs st) ≡ₚ device_one :: table st).
Proof.
  destruct (serve_all_table rs st) as [H|[Hnew H]]; [left; exact H|].
  right. split; [exact Hnew|]. rewrite H. apply insert_row_perm.
Qed.

(** X8. The primary key holds across requests: if no two rows share an id,
    no two rows do after any sequence of requests. *)
Theorem primary_key_kept (rs : list (method * event)) (st : state) :
  unique_ids (table st) -> unique_ids (table (serve_all rs st)).
Proof.
  intros Hu. destruct (serve_all_table rs st) as [->|[Hnew ->]]; [exact Hu|].
  apply unique_ids_insert_row; assumption.
Qed.

Lemma primary_key_kept_witness :
  let startup := make_event (PyInt 1) (PyStr "42x5yz") (PyStr "STARTUP") in
  unique_ids
    (table (serve_all [(POST, startup); (GET, ∅); (POST, startup)]
              (mkState [mkRow 7 "Seven" 20 3] [] []))).
Proof.
  apply (primary_key_kept
           [(POST, make_event (PyInt 1) (PyStr "42x5yz") (PyStr "STARTUP"));
            (GET, ∅);
            (POST, make_event (PyInt 1) (PyStr "42x5yz") (PyStr "STARTUP"))]
           (mkState [mkRow 7 "Seven" 20 3] [] [])).
  unfold unique_ids. simpl. apply NoDup_singleton.
Defined.

(** X9. Once device 1 is registered the registry is frozen: no sequence of
    requests changes the table, and a valid, authenticated STARTUP that
    follows is answered with 500 and changes nothing either. *)
Theorem registry_frozen (rs : list (method * event)) (e : event) (st : state) :
  has_id 1 (table st) = true ->
  valid e = true -> authenticated e = true -> get e "type" = PyStr "STARTUP" ->
  table (serve_all rs st) = table st /\
  fst (post e (serve_all rs st)) = Error 500 /\
  table (snd (post e (serve_all rs st))) = table st.
Proof.
  intros Hold Hv Ha Hty.
  assert (Ht : table (serve_all rs st) = table st)
    by (destruct (serve_all_table rs st) as [H|[Hc _]]; [exact H|congruence]).
  split; [exact Ht|].
  destruct (authenticated_inv e Hv Ha) as [H1 _].
  rewrite (post_startup_known e (serve_all rs st) 1%Z) by (try assumption; congruence).
  cbn [fst snd table]. auto.
Qed.

Lemma registry_frozen_witness :
  let startup := make_event (PyInt 1) (PyStr "42x5yz") (PyStr "STARTUP") in
  let st := mkState [device_one] [] [] in
  let rs := [(POST, make_event (PyInt 1) (PyStr "42x5yz") (PyStr "DISPENSE"))] in
  table (serve_all rs st) = table st /\
  fst (post startup (serve_all rs st)) = Error 500 /\
  table (snd (post startup (serve_all rs st))) = table st.
Proof.
  apply (registry_frozen
           [(POST, make_event (PyInt 1) (PyStr "42x5yz") (PyStr "DISPENSE"))]
           (make_event (PyInt 1) (PyStr "42x5yz") (PyStr "STARTUP"))
           (mkState [device_one] [] [])); reflexivity.
Defined.

(** X10. A request that is not answered with 200 leaves the table as it
    was: a rejection, a failed lookup and a failed INSERT store nothing. *)
Theorem failed_request_keeps_table (m : method) (j : event) (st : state) :
  status (fst (serve m j st)) <> 200%Z ->
  table (snd (serve m j st)) = table st.
Proof.
  intros Hs. destruct (serve_table m j st) as [H|(_ & Hok & _)]; [exact H|].
  rewrite Hok in Hs. contradiction Hs. reflexivity.
Qed.

Lemma failed_request_keeps_table_witness :
  let e := make_event (PyInt 1) (PyStr "42x5yz") (PyStr "STARTUP") in
  let st := mkState [device_one] [] [] in
  table (snd (serve POST e st)) = table st.
Proof.
  apply (failed_request_keeps_table POST
           (make_event (PyInt 1) (PyStr "42x5yz") (PyStr "STARTUP"))
           (mkState [device_one] [] [])).
  vm_compute. discriminate.
Defined.

(** *** What a POST writes *)

(** The lines a POST adds to the trace: the event first, then the warning
    of a rejection or nothing, when no handler runs, or the line of the
    handler and the rows it prints. *)
Lemma post_trace (e : event) (st : state) :
  exists tl,
    trace (snd (post e st)) = trace st ++ Logged INFO "Event: " (Some e) :: tl /\
    ((valid e && authenticated e = false /\
      (tl = [] \/ exists k, tl = [Logged WARNING (warning k) None])) \/
     (valid e = true /\ authenticated e = true /\
      exists msg rows, msg ∈ handler_lines /\
        tl = Logged INFO msg (Some e) :: map printed rows)).
Proof.
  rewrite post_unfold.
  destruct (present e) eqn:Hp.
  2:{ rewrite process_event_missing by exact Hp. unfold fresh, log.
      cbn [snd table session trace respond]. rewrite <- app_assoc.
      eexists. split; [reflexivity|]. left. unfold valid. rewrite Hp.
      split; [reflexivity|]. right. exists MissingField. reflexivity. }
  destruct (in_strs (get e "type") legal_types) eqn:Hty.
  2:{ rewrite process_event_illegal by assumption. unfold fresh, log.
      cbn [snd table session trace respond]. rewrite <- app_assoc.
      eexists. split; [reflexivity|]. left. unfold valid. rewrite Hp, Hty.
      split; [reflexivity|]. right. exists IllegalType. reflexivity. }
  assert (Hv : valid e = true) by (unfold valid; rewrite Hp, Hty; reflexivity).
  rewrite process_event_valid by exact Hv. rewrite Hv.
  pose proof (authenticated_inv e Hv) as Hinv. revert Hinv. unfold authenticated.
  destruct (dict_get permitted_devices (get e "id")) as [stored|x].
  2:{ intros _. unfold fresh, log. cbn [snd table session trace respond].
      eexists. split; [reflexivity|]. left. split; [reflexivity|]. left. reflexivity. }
  destruct (eq_stored stored (get e "token")).
  2:{ intros _. unfold fresh, log. cbn [snd table session trace respond].
      rewrite <- app_assoc.
      eexists. split; [reflexivity|]. left. split; [reflexivity|].
      right. exists Unauthenticated. reflexivity. }
  intros Hinv. destruct (Hinv eq_refl) as [H1 _]. apply int_of_bind_integer in H1.
  apply present_fields in Hp as (Hid & _ & _). apply get_lookup in Hid.
  destruct (eq_str (get e "type") "STARTUP") eqn:Hs.
  - unfold handler. rewrite Hs.
    destruct (has_id 1 (table st)) eqn:Hold.
    + rewrite (handle_startup_known e (get e "id") 1%Z) by (try assumption; reflexivity).
      unfold fresh, log. cbn [snd table session trace respond]. rewrite <- app_assoc.
      eexists. split; [reflexivity|]. right. repeat split.
      exists "Processing STARTUP event: ", []. split; [repeat constructor|reflexivity].
    + rewrite (handle_startup_new e (get e "id") 1%Z) by (try assumption; reflexivity).
      unfold fresh, log. cbn [snd table session trace]. rewrite <- app_assoc.
      eexists. split; [reflexivity|]. right. repeat split.
      eexists _, _. split; [|reflexivity]. repeat constructor.
  - destruct (handler_stub (get e "type") e
                (log (Logged INFO "Event: " (Some e)) (fresh st)) Hty Hs)
      as (msg & Hm & ->).
    unfold fresh, log. cbn [snd table session trace]. rewrite <- app_assoc.
    eexists. split; [reflexivity|]. right. repeat split.
    exists msg, []. split; [|reflexivity].
    unfold handler_lines. apply elem_of_cons. right. exact Hm.
Qed.

(** X11. Every POST whose body is a JSON object, accepted or not, first
    logs the whole event, token included. Nothing it writes goes to the
    relay, and the line of a
    handler is among what it writes exactly when the event is valid and
    authenticated: no handler runs for any other event. *)
Theorem handler_runs_iff (e : event) (st : state) :
  exists tl,
    trace (snd (post e st)) = trace st ++ Logged INFO "Event: " (Some e) :: tl /\
    ~ relayed tl /\
    (dispatched tl <-> valid e = true /\ authenticated e = true).
Proof.
  destruct (post_trace e st) as (tl & Ht & Hcases). exists tl. split; [exact Ht|].
  destruct Hcases as [[Hna Htl]|(Hv & Ha & msg & rows & Hm & ->)].
  - assert (Hno : forall x, x ∈ tl -> exists w, x = Logged WARNING w None).
    { destruct Htl as [->|[k ->]]; intros x Hx.
      - inversion Hx.
      - apply list_elem_of_singleton in Hx. eauto. }
    split; [|split].
    + intros (topic & e' & Hin). apply Hno in Hin as [w Hw]. discriminate Hw.
    + intros (m & arg & _ & Hin). apply Hno in Hin as [w Hw]. discriminate Hw.
    + intros [Hv Ha]. rewrite Hv, Ha in Hna. discriminate Hna.
  - split; [|split; [auto|]].
    + intros (topic & e' & Hin). apply elem_of_cons in Hin as [Hin|Hin]; [discriminate|].
      apply list_elem_of_fmap in Hin as (r & Hr & _). discriminate Hr.
    + intros _. exists msg, (Some e). split; [exact Hm|]. apply elem_of_cons. left. reflexivity.
Qed.

(** X12. An accepted STARTUP prints the registry: after the line of the
    event and the line of the handler, one line for each row the table
    holds once the new row is stored, in the order of the table, which is
    by ascending id when it was before. *)
Theorem startup_prints_registry (e : event) (st : state) :
  valid e = true -> authenticated e = true -> get e "type" = PyStr "STARTUP" ->
  has_id 1 (table st) = false ->
  added st (snd (post e st)) =
    Logged INFO "Event: " (Some e) ::
    Logged INFO "Processing STARTUP event: " (Some e) ::
    map printed (table (snd (post e st))) /\
  table (snd (post e st)) ≡ₚ device_one :: table st /\
  (ascending (table st) -> ascending (table (snd (post e st)))).
Proof.
  intros Hv Ha Hty Hnew.
  destruct (authenticated_inv e Hv Ha) as [H1 _]. apply int_of_bind_integer in H1.
  pose proof (valid_fields e Hv) as [Hp _].
  apply present_fields in Hp as (Hid & _ & _). apply get_lookup in Hid.
  rewrite post_unfold, process_event_authenticated by assumption.
  unfold handler. rewrite Hty. cbn [eq_str]. rewrite String.eqb_refl.
  rewrite (handle_startup_new e (get e "id") 1%Z) by (try assumption; reflexivity).
  unfold added, fresh, log. cbn [snd table session trace]. rewrite <- app_assoc.
  split; [apply drop_app_length|]. split; [apply insert_row_perm|].
  intros Hs. apply insert_row_ascending; assumption.
Qed.

Lemma startup_prints_registry_witness :
  let e := make_event (PyInt 1) (PyStr "42x5yz") (PyStr "STARTUP") in
  let st := mkState [mkRow 7 "Seven" 20 3] [] [] in
  added st (snd (post e st)) =
    Logged INFO "Event: " (Some e) ::
    Logged INFO "Processing STARTUP event: " (Some e) ::
    map printed (table (snd (post e st))) /\
  table (snd (post e st)) ≡ₚ device_one :: table st /\
  (ascending (table st) -> ascending (table (snd (post e st)))).
Proof.
  apply (startup_prints_registry
           (make_event (PyInt 1) (PyStr "42x5yz") (PyStr "STARTUP"))
           (mkState [mkRow 7 "Seven" 20 3] [] [])); reflexivity.
Defined.

(** The lines of that run: device 1 before device 7. *)
Lemma startup_prints_by_id :
  let e := make_event (PyInt 1) (PyStr "42x5yz") (PyStr "STARTUP") in
  let st := mkState [mkRow 7 "Seven" 20 3] [] [] in
  added st (snd (post e st)) =
    [Logged INFO "Event: " (Some e);
     Logged INFO "Processing STARTUP event: " (Some e);
     Printed 1 "Another Dispenser"; Printed 7 "Seven"].
Proof. reflexivity. Qed.

(** *** The id [True] *)

Lemma outcome_true_id (token type : pyval) (t : list row) :
  outcome (PyBool true) token type t = outcome (PyInt 1) token type t.
Proof. unfold outcome. rewrite !dict_get_permitted. reflexivity. Qed.

(** X13. An event whose id is the boolean [True] is handled as the same
    event with the id 1, since [True == 1] finds the entry of device 1 and
    is stored as the integer 1: same response, same table afterwards. *)
Theorem true_id_is_device_one (e : event) (st : state) :
  e !! "id" = Some (PyBool true) ->
  fst (post e st) = fst (post (<["id" := PyInt 1]> e) st) /\
  table (snd (post e st)) = table (snd (post (<["id" := PyInt 1]> e) st)).
Proof.
  intros Hid.
  pose proof (post_outcome e st) as H1.
  pose proof (post_outcome (<["id" := PyInt 1]> e) st) as H2.
  rewrite (lookup_get e "id" _ Hid) in H1.
  rewrite (lookup_get (<["id" := PyInt 1]> e) "id" (PyInt 1)) in H2
    by apply lookup_insert_eq.
  assert (Hk : forall k : string, k <> "id" -> get (<["id" := PyInt 1]> e) k = get e k)
    by (intros k Hk; unfold get; rewrite lookup_insert_ne by congruence; reflexivity).
  rewrite !Hk in H2 by discriminate.
  rewrite outcome_true_id, <- H2 in H1. injection H1 as Hr Ht. auto.
Qed.

Lemma true_id_is_device_one_witness :
  let e := make_event (PyBool true) (PyStr "42x5yz") (PyStr "STARTUP") in
  fst (post e empty_state) = fst (post (<["id" := PyInt 1]> e) empty_state) /\
  table (snd (post e empty_state)) =
    table (snd (post (<["id" := PyInt 1]> e) empty_state)).
Proof.
  apply (true_id_is_device_one
           (make_event (PyBool true) (PyStr "42x5yz") (PyStr "STARTUP")) empty_state).
  reflexivity.
Defined.
